(** * OpenVisionMatrix: the perspective-mapping math core

    A shallow embedding of [packages/renderer] (quad validation, the
    rectangle-to-quad homography solver, point projection, the CSS
    [matrix3d] embedding and the quad utilities) together with the
    properties the specification states about them.

    Numbers.  A JavaScript [number] is an IEEE 754 binary64 number.
    Module [Binary64] embeds the renderer over [PrimFloat]: [===] is
    [PrimFloat.eqb], a comparison with NaN is false, a division by zero
    gives an infinity or NaN.  Every property that depends on a computed
    value is stated there and proved from the specification of the
    operations over [spec_float]; where rounding makes a property of the
    specification fail, an input on which it fails is evaluated.  The
    first embedding takes numbers as exact rationals ([Q], compared with
    [==]); it carries the properties whose statement does not depend on
    rounding: the order of the error guards, the agreement of the CSS
    matrix with the projection, and the clamps and list operations of the
    editor.

    Exceptions.  [throw new Error(msg)] is modelled by the [Err] branch
    of [result]; [errorMessage] gives back the message of the source.

    Mutation.  [solveLinearSystem] updates its two arrays in place; the
    model threads the pair (A, b) through the loops.

    The editor.  The exact embedding also covers callers of the renderer
    in apps/pwa/src/App.tsx: the scale and drag helpers, the reordering
    of the surface list and the mask polygon. *)

From Stdlib Require Import Floats.
From Stdlib Require Import QArith Qabs Qminmax Qfield Lqa Lia.
From Stdlib Require Import List Bool String PeanoNat.
From Stdlib Require Import Permutation.
Import ListNotations.
Set Warnings "-inexact-float".
Open Scope Q_scope.

(** ** Numbers and comparisons *)

(** [a < b] on numbers, as a boolean. *)
Definition Qltb (a b : Q) : bool := negb (Qle_bool b a).

(** ** Geometry primitives (math/types.ts, core/index.ts) *)

Module Point2D.
Record t : Set := mk { x : Q; y : Q }.
End Point2D.
Abbreviation Point2D := Point2D.t.
Notation "p '.x'" := (Point2D.x p) (at level 1, format "p '.x'").
Notation "p '.y'" := (Point2D.y p) (at level 1, format "p '.y'").

(** The point literal [{ x, y }]. *)
Definition pt (x y : Q) : Point2D := Point2D.mk x y.

(** Two points with the same coordinates. *)
Definition Peq (a b : Point2D) : Prop := a.x == b.x /\ a.y == b.y.

(** [Quad = [Point2D, Point2D, Point2D, Point2D]]. *)
Record Quad : Set := mkQuad { q0 : Point2D; q1 : Point2D; q2 : Point2D; q3 : Point2D }.

(** [quad[i]] for i in 0..3. *)
Definition quadGet (q : Quad) (i : nat) : Point2D :=
  match i with
  | 0%nat => q0 q
  | 1%nat => q1 q
  | 2%nat => q2 q
  | _ => q3 q
  end.

Definition quadToList (q : Quad) : list Point2D := [q0 q; q1 q; q2 q; q3 q].

(** Row-major 3x3 matrix, [H[0] .. H[8]]. *)
Record Matrix3x3 : Set := mkMatrix3x3 {
  H0 : Q; H1 : Q; H2 : Q;
  H3 : Q; H4 : Q; H5 : Q;
  H6 : Q; H7 : Q; H8 : Q
}.

(** 16 numbers, [M[0] .. M[15]]. *)
Record Matrix4x4 : Set := mkMatrix4x4 {
  M0 : Q; M1 : Q; M2 : Q; M3 : Q;
  M4 : Q; M5 : Q; M6 : Q; M7 : Q;
  M8 : Q; M9 : Q; M10 : Q; M11 : Q;
  M12 : Q; M13 : Q; M14 : Q; M15 : Q
}.

(** ** Errors *)

(** The five reasons [validateQuad] reports. *)
Inductive QuadReason : Set :=
| DuplicatePoint
| CollinearPoints
| DegenerateArea
| WrongOrientation
| SelfIntersecting.

Definition reasonMessage (r : QuadReason) : string :=
  match r with
  | DuplicatePoint => "Quad contains duplicate points."
  | CollinearPoints => "Quad has collinear points."
  | DegenerateArea => "Quad area is too small."
  | WrongOrientation => "Quad must be clockwise."
  | SelfIntersecting => "Quad is self-intersecting."
  end.

(** The exceptions of homography.ts. *)
Inductive Error : Set :=
| InvalidDimensions
| InvalidQuad (reason : QuadReason)
| SingularSystem
| InternalConsistency
| DegenerateProjection.

Definition errorMessage (e : Error) : string :=
  match e with
  | InvalidDimensions => "Width and height must be positive."
  | InvalidQuad r => "Invalid quad: " ++ reasonMessage r
  | SingularSystem => "Homography system is singular."
  | InternalConsistency => "Homography sanity check failed."
  | DegenerateProjection => "Homography w is ~0 (degenerate transform)"
  end.

Inductive result (A : Type) : Type :=
| Ok (a : A)
| Err (e : Error).
Arguments Ok {A} a.
Arguments Err {A} e.

Definition bind {A B : Type} (r : result A) (k : A -> result B) : result B :=
  match r with
  | Ok a => k a
  | Err e => Err e
  end.

Notation "'let*' x ':=' r 'in' k" := (bind r (fun x => k))
  (at level 10, x name, r at level 100, k at level 200).

(** [{ ok: true } | { ok: false; reason }]. *)
Inductive Validation : Set :=
| Valid
| Invalid (reason : QuadReason).

(** ** math/validate.ts *)

Definition DEFAULT_EPSILON : Q := 1e-6.

Definition quadArea (quad : Quad) : Q :=
  let step (sum : Q) (i : nat) :=
    let p1 := quadGet quad i in
    let p2 := quadGet quad ((i + 1) mod 4) in
    sum + (p1.x * p2.y - p2.x * p1.y) in
  fold_left step [0; 1; 2; 3]%nat 0 / 2.

Definition isClockwiseQuad (quad : Quad) : bool := Qltb 0 (quadArea quad).

Definition pointsEqual (a b : Point2D) : bool :=
  Qeq_bool a.x b.x && Qeq_bool a.y b.y.

Definition cross (a b c : Point2D) : Q :=
  let abx := b.x - a.x in
  let aby := b.y - a.y in
  let acx := c.x - a.x in
  let acy := c.y - a.y in
  abx * acy - aby * acx.

(** The nested loops [for i < 4, for j in i+1 .. 3], first hit returns. *)
Definition hasDuplicatePoints (quad : Quad) : bool :=
  existsb (fun i =>
    existsb (fun j => pointsEqual (quadGet quad i) (quadGet quad j))
            (seq (i + 1) (4 - (i + 1))))
    [0; 1; 2; 3]%nat.

Definition triplets : list (nat * nat * nat) :=
  [(0, 1, 2); (0, 1, 3); (0, 2, 3); (1, 2, 3)]%nat.

Definition hasCollinearTriplet (quad : Quad) (epsilon : Q) : bool :=
  existsb (fun '(i, j, k) =>
    Qle_bool (Qabs (cross (quadGet quad i) (quadGet quad j) (quadGet quad k))) epsilon)
    triplets.

Definition segmentsIntersect (a b c d : Point2D) (epsilon : Q) : bool :=
  let ab := cross a b c in
  let ab2 := cross a b d in
  let cd := cross c d a in
  let cd2 := cross c d b in
  if Qle_bool (Qabs ab) epsilon && Qle_bool (Qabs ab2) epsilon
     && Qle_bool (Qabs cd) epsilon && Qle_bool (Qabs cd2) epsilon
  then false
  else
    if (Qltb epsilon ab && Qltb ab2 (- epsilon)) || (Qltb ab (- epsilon) && Qltb epsilon ab2)
    then (Qltb epsilon cd && Qltb cd2 (- epsilon)) || (Qltb cd (- epsilon) && Qltb epsilon cd2)
    else false.

Definition isSelfIntersecting (quad : Quad) (epsilon : Q) : bool :=
  segmentsIntersect (q0 quad) (q1 quad) (q2 quad) (q3 quad) epsilon
  || segmentsIntersect (q1 quad) (q2 quad) (q3 quad) (q0 quad) epsilon.

Definition validateQuad (quad : Quad) (epsilon : Q) : Validation :=
  if hasDuplicatePoints quad then Invalid DuplicatePoint
  else if hasCollinearTriplet quad epsilon then Invalid CollinearPoints
  else
    let area := quadArea quad in
    if Qle_bool (Qabs area) epsilon then Invalid DegenerateArea
    else if negb (isClockwiseQuad quad) then Invalid WrongOrientation
    else if isSelfIntersecting quad epsilon then Invalid SelfIntersecting
    else Valid.

(** ** math/homography.ts *)

Definition W_EPSILON : Q := 1e-12.

(** [declare const process: { env?: { NODE_ENV?: string } } | undefined]. *)
Record ProcessEnv : Set := mkProcessEnv { NODE_ENV : option string }.
Record Process : Set := mkProcess { env : option ProcessEnv }.

(** [typeof process !== "undefined" && process?.env?.NODE_ENV === "production"]. *)
Definition isProd (process : option Process) : bool :=
  match process with
  | None => false
  | Some p =>
      match env p with
      | None => false
      | Some e =>
          match NODE_ENV e with
          | None => false
          | Some s => String.eqb s "production"
          end
      end
  end.

(** Arrays of numbers: [number[]] and [number[][]], read with [a[i]]
    and written with [a[i] = v] at indices inside the array (the only
    accesses [solveLinearSystem] makes on a square system). *)
Definition Vector := list Q.
Definition Matrix := list (list Q).

Definition getV (b : Vector) (i : nat) : Q := nth i b 0.
Definition getM (A : Matrix) (r c : nat) : Q := nth c (nth r A []) 0.

Fixpoint setNth {T : Type} (l : list T) (i : nat) (v : T) : list T :=
  match l, i with
  | [], _ => []
  | _ :: t, O => v :: t
  | h :: t, S i' => h :: setNth t i' v
  end.

Definition setM (A : Matrix) (r c : nat) (v : Q) : Matrix :=
  setNth A r (setNth (nth r A []) c v).

(** Lines 13-21: the search for the row with the largest [|A[r][i]|],
    [r] from [i] on; the state is [(max, pivotRow)]. *)
Definition findPivot (n i : nat) (A : Matrix) : Q * nat :=
  fold_left
    (fun (st : Q * nat) (r : nat) =>
       let value := Qabs (getM A r i) in
       if Qltb (fst st) value then (value, r) else st)
    (seq (i + 1) (n - (i + 1)))
    (Qabs (getM A i i), i).

(** Lines 27-34: exchange of rows [i] and [pivotRow] of [A] and of [b]. *)
Definition swapRows (i pivotRow : nat) (A : Matrix) (b : Vector) : Matrix * Vector :=
  if (pivotRow =? i)%nat then (A, b)
  else
    let tmpRow := nth i A [] in
    let A := setNth A i (nth pivotRow A []) in
    let A := setNth A pivotRow tmpRow in
    let tmpB := getV b i in
    let b := setNth b i (getV b pivotRow) in
    let b := setNth b pivotRow tmpB in
    (A, b).

(** Lines 36-40: division of row [i] (columns [i] on) and of [b[i]] by the pivot. *)
Definition normalizeRow (n i : nat) (A : Matrix) (b : Vector) : Matrix * Vector :=
  let pivot := getM A i i in
  let A := fold_left (fun A c => setM A i c (getM A i c / pivot)) (seq i (n - i)) A in
  let b := setNth b i (getV b i / pivot) in
  (A, b).

(** Lines 43-49: the body of the elimination loop for one row [r]. *)
Definition eliminateRow (n i : nat) (st : Matrix * Vector) (r : nat) : Matrix * Vector :=
  let '(A, b) := st in
  if (r =? i)%nat then (A, b)
  else
    let factor := getM A r i in
    if Qeq_bool factor 0 then (A, b)
    else
      let A := fold_left (fun A c => setM A r c (getM A r c - factor * getM A i c))
                         (seq i (n - i)) A in
      let b := setNth b r (getV b r - factor * getV b i) in
      (A, b).

(** Lines 13-50: one iteration of the outer loop. *)
Definition solveStep (n i : nat) (A : Matrix) (b : Vector) : result (Matrix * Vector) :=
  let '(max, pivotRow) := findPivot n i A in
  if Qeq_bool max 0 then Err SingularSystem
  else
    let '(A, b) := swapRows i pivotRow A b in
    let '(A, b) := normalizeRow n i A b in
    Ok (fold_left (eliminateRow n i) (seq 0 n) (A, b)).

Fixpoint solveLoop (n : nat) (rows : list nat) (A : Matrix) (b : Vector) : result Vector :=
  match rows with
  | [] => Ok b
  | i :: rows' =>
      let* st := solveStep n i A b in
      solveLoop n rows' (fst st) (snd st)
  end.

Definition solveLinearSystem (A : Matrix) (b : Vector) : result Vector :=
  let n := List.length A in
  solveLoop n (seq 0 n) A b.

Definition applyHomography (H : Matrix3x3) (p : Point2D) : result Point2D :=
  let x := p.x in
  let y := p.y in
  let xPrime := H0 H * x + H1 H * y + H2 H in
  let yPrime := H3 H * x + H4 H * y + H5 H in
  let wPrime := H6 H * x + H7 H * y + H8 H in
  if Qltb (Qabs wPrime) W_EPSILON then Err DegenerateProjection
  else Ok (Point2D.mk (xPrime / wPrime) (yPrime / wPrime)).

(** The canonical source rectangle, clockwise from the origin. *)
Definition rectCorners (width height : Q) : list Point2D :=
  [Point2D.mk 0 0; Point2D.mk width 0; Point2D.mk width height; Point2D.mk 0 height].

Definition srcGet (src : list Point2D) (i : nat) : Point2D := nth i src (Point2D.mk 0 0).

Fixpoint sanityLoop (src : list Point2D) (quad : Quad) (H : Matrix3x3) (idx : list nat)
  : result unit :=
  match idx with
  | [] => Ok tt
  | i :: idx' =>
      let* mapped := applyHomography H (srcGet src i) in
      let target := quadGet quad i in
      let dx := mapped.x - target.x in
      let dy := mapped.y - target.y in
      if Qltb DEFAULT_EPSILON (Qabs dx) || Qltb DEFAULT_EPSILON (Qabs dy)
      then Err InternalConsistency
      else sanityLoop src quad H idx'
  end.

Definition sanityCheckRectToQuad (width height : Q) (quad : Quad) (H : Matrix3x3)
  : result unit :=
  sanityLoop (rectCorners width height) quad H [0; 1; 2; 3]%nat.

(** Lines 101-113: the 8x8 system, two equations per correspondence. *)
Definition buildSystem (src : list Point2D) (quad : Quad) : Matrix * Vector :=
  fold_left
    (fun (st : Matrix * Vector) (i : nat) =>
       let '(A, b) := st in
       let s := srcGet src i in
       let t := quadGet quad i in
       let A := (A ++ [[s.x; s.y; 1; 0; 0; 0; - t.x * s.x; - t.x * s.y]])%list in
       let b := (b ++ [t.x])%list in
       let A := (A ++ [[0; 0; 0; s.x; s.y; 1; - t.y * s.x; - t.y * s.y]])%list in
       let b := (b ++ [t.y])%list in
       (A, b))
    [0; 1; 2; 3]%nat
    ([], []).

Definition computeHomographyRectToQuad
  (process : option Process) (width height : Q) (quad : Quad) : result Matrix3x3 :=
  if Qle_bool width 0 || Qle_bool height 0 then Err InvalidDimensions
  else
    match validateQuad quad DEFAULT_EPSILON with
    | Invalid reason => Err (InvalidQuad reason)
    | Valid =>
        let src := rectCorners width height in
        let '(A, b) := buildSystem src quad in
        let* h := solveLinearSystem A b in
        let H := mkMatrix3x3 (getV h 0) (getV h 1) (getV h 2)
                             (getV h 3) (getV h 4) (getV h 5)
                             (getV h 6) (getV h 7) 1 in
        if negb (isProd process)
        then let* _ := sanityCheckRectToQuad width height quad H in Ok H
        else Ok H
    end.

(** ** math/cssMatrix.ts *)

Definition homographyToCssMatrix3d (H : Matrix3x3) : Matrix4x4 :=
  let h00 := H0 H in
  let h01 := H1 H in
  let h02 := H2 H in
  let h10 := H3 H in
  let h11 := H4 H in
  let h12 := H5 H in
  let h20 := H6 H in
  let h21 := H7 H in
  let h22 := H8 H in
  mkMatrix4x4
    h00 h10 0 h20
    h01 h11 0 h21
    0 0 1 0
    h02 h12 0 h22.

(** A homogeneous point (x, y, z, w). *)
Record Vec4 : Set := mkVec4 { vx : Q; vy : Q; vz : Q; vw : Q }.

(** What the compositor does with the sixteen numbers of [matrix3d(...)]:
    they are the columns of the transform (the source's comment:
    "CSS matrix3d expects column-major order"), multiplied with the
    column vector (x, y, z, w).  This product is the consumer's side of
    the renderer contract; it is not a function of the repository. *)
Definition applyMatrix4x4 (M : Matrix4x4) (v : Vec4) : Vec4 :=
  mkVec4
    (M0 M * vx v + M4 M * vy v + M8 M * vz v + M12 M * vw v)
    (M1 M * vx v + M5 M * vy v + M9 M * vz v + M13 M * vw v)
    (M2 M * vx v + M6 M * vy v + M10 M * vz v + M14 M * vw v)
    (M3 M * vx v + M7 M * vy v + M11 M * vz v + M15 M * vw v).

(** The perspective divide of x and y by the w-component. *)
Definition perspectiveDivide (v : Vec4) : Point2D :=
  Point2D.mk (vx v / vw v) (vy v / vw v).

(** ** quad.ts *)

Inductive FullscreenFit : Set := Stretch | Contain | Cover.

Inductive FullscreenAlign : Set :=
| Center
| TopLeft
| TopRight
| BottomLeft
| BottomRight.

(** [quad.length]: a Quad has four entries. *)
Definition quadLength (q : Quad) : Q := inject_Z (Z.of_nat (List.length (quadToList q))).

Definition getQuadCenter (quad : Quad) : Point2D :=
  let sum :=
    fold_left (fun acc point => Point2D.mk (acc.x + point.x) (acc.y + point.y))
              (quadToList quad) (Point2D.mk 0 0) in
  Point2D.mk (sum.x / quadLength quad) (sum.y / quadLength quad).

(** ** The renderer on binary64

    math/validate.ts, math/homography.ts and quad.ts over IEEE 754
    binary64, as the engine computes them: every operation of the source
    is the rounded operation of [PrimFloat], in the order the source
    writes it. *)

Module Binary64.

Local Open Scope float_scope.

Record Point : Set := mkPoint { x : float; y : float }.

Record Quad : Set := mkQuad { q0 : Point; q1 : Point; q2 : Point; q3 : Point }.

Definition quadGet (q : Quad) (i : nat) : Point :=
  match i with
  | 0%nat => q0 q
  | 1%nat => q1 q
  | 2%nat => q2 q
  | _ => q3 q
  end.

Record Matrix3x3 : Set := mkMatrix3x3 {
  H0 : float; H1 : float; H2 : float;
  H3 : float; H4 : float; H5 : float;
  H6 : float; H7 : float; H8 : float
}.

Definition DEFAULT_EPSILON : float := 1e-6.
Definition W_EPSILON : float := 1e-12.

Definition quadArea (quad : Quad) : float :=
  let step (sum : float) (i : nat) :=
    let p1 := quadGet quad i in
    let p2 := quadGet quad ((i + 1) mod 4) in
    sum + (x p1 * y p2 - x p2 * y p1) in
  fold_left step [0; 1; 2; 3]%nat 0 / 2.

Definition isClockwiseQuad (quad : Quad) : bool := 0 <? quadArea quad.

Definition pointsEqual (a b : Point) : bool := (x a =? x b) && (y a =? y b).

Definition cross (a b c : Point) : float :=
  let abx := x b - x a in
  let aby := y b - y a in
  let acx := x c - x a in
  let acy := y c - y a in
  abx * acy - aby * acx.

Definition hasDuplicatePoints (quad : Quad) : bool :=
  existsb (fun i =>
    existsb (fun j => pointsEqual (quadGet quad i) (quadGet quad j))
            (seq (i + 1) (4 - (i + 1))))
    [0; 1; 2; 3]%nat.

Definition hasCollinearTriplet (quad : Quad) (epsilon : float) : bool :=
  existsb (fun '(i, j, k) =>
    abs (cross (quadGet quad i) (quadGet quad j) (quadGet quad k)) <=? epsilon)
    triplets.

Definition segmentsIntersect (a b c d : Point) (epsilon : float) : bool :=
  let ab := cross a b c in
  let ab2 := cross a b d in
  let cd := cross c d a in
  let cd2 := cross c d b in
  if (abs ab <=? epsilon) && (abs ab2 <=? epsilon)
     && (abs cd <=? epsilon) && (abs cd2 <=? epsilon)
  then false
  else
    if ((epsilon <? ab) && (ab2 <? - epsilon)) || ((ab <? - epsilon) && (epsilon <? ab2))
    then ((epsilon <? cd) && (cd2 <? - epsilon)) || ((cd <? - epsilon) && (epsilon <? cd2))
    else false.

Definition isSelfIntersecting (quad : Quad) (epsilon : float) : bool :=
  segmentsIntersect (q0 quad) (q1 quad) (q2 quad) (q3 quad) epsilon
  || segmentsIntersect (q1 quad) (q2 quad) (q3 quad) (q0 quad) epsilon.

Definition validateQuad (quad : Quad) (epsilon : float) : Validation :=
  if hasDuplicatePoints quad then Invalid DuplicatePoint
  else if hasCollinearTriplet quad epsilon then Invalid CollinearPoints
  else
    let area := quadArea quad in
    if abs area <=? epsilon then Invalid DegenerateArea
    else if negb (isClockwiseQuad quad) then Invalid WrongOrientation
    else if isSelfIntersecting quad epsilon then Invalid SelfIntersecting
    else Valid.

Definition getV (b : list float) (i : nat) : float := nth i b 0.
Definition getM (A : list (list float)) (r c : nat) : float := nth c (nth r A []) 0.

Definition setM (A : list (list float)) (r c : nat) (v : float) : list (list float) :=
  setNth A r (setNth (nth r A []) c v).

Definition findPivot (n i : nat) (A : list (list float)) : float * nat :=
  fold_left
    (fun (st : float * nat) (r : nat) =>
       let value := abs (getM A r i) in
       if fst st <? value then (value, r) else st)
    (seq (i + 1) (n - (i + 1)))
    (abs (getM A i i), i).

Definition swapRows (i pivotRow : nat) (A : list (list float)) (b : list float)
  : list (list float) * list float :=
  if (pivotRow =? i)%nat then (A, b)
  else
    let tmpRow := nth i A [] in
    let A := setNth A i (nth pivotRow A []) in
    let A := setNth A pivotRow tmpRow in
    let tmpB := getV b i in
    let b := setNth b i (getV b pivotRow) in
    let b := setNth b pivotRow tmpB in
    (A, b).

Definition normalizeRow (n i : nat) (A : list (list float)) (b : list float)
  : list (list float) * list float :=
  let pivot := getM A i i in
  let A := fold_left (fun A c => setM A i c (getM A i c / pivot)) (seq i (n - i)) A in
  let b := setNth b i (getV b i / pivot) in
  (A, b).

Definition eliminateRow (n i : nat) (st : list (list float) * list float) (r : nat)
  : list (list float) * list float :=
  let '(A, b) := st in
  if (r =? i)%nat then (A, b)
  else
    let factor := getM A r i in
    if factor =? 0 then (A, b)
    else
      let A := fold_left (fun A c => setM A r c (getM A r c - factor * getM A i c))
                         (seq i (n - i)) A in
      let b := setNth b r (getV b r - factor * getV b i) in
      (A, b).

Definition solveStep (n i : nat) (A : list (list float)) (b : list float)
  : result (list (list float) * list float) :=
  let '(max, pivotRow) := findPivot n i A in
  if max =? 0 then Err SingularSystem
  else
    let '(A, b) := swapRows i pivotRow A b in
    let '(A, b) := normalizeRow n i A b in
    Ok (fold_left (eliminateRow n i) (seq 0 n) (A, b)).

Fixpoint solveLoop (n : nat) (rows : list nat) (A : list (list float)) (b : list float)
  : result (list float) :=
  match rows with
  | [] => Ok b
  | i :: rows' =>
      let* st := solveStep n i A b in
      solveLoop n rows' (fst st) (snd st)
  end.

Definition solveLinearSystem (A : list (list float)) (b : list float) : result (list float) :=
  let n := List.length A in
  solveLoop n (seq 0 n) A b.

Definition applyHomography (H : Matrix3x3) (p : Point) : result Point :=
  let xPrime := H0 H * x p + H1 H * y p + H2 H in
  let yPrime := H3 H * x p + H4 H * y p + H5 H in
  let wPrime := H6 H * x p + H7 H * y p + H8 H in
  if abs wPrime <? W_EPSILON then Err DegenerateProjection
  else Ok (mkPoint (xPrime / wPrime) (yPrime / wPrime)).

Definition rectCorners (width height : float) : list Point :=
  [mkPoint 0 0; mkPoint width 0; mkPoint width height; mkPoint 0 height].

Definition srcGet (src : list Point) (i : nat) : Point := nth i src (mkPoint 0 0).

Fixpoint sanityLoop (src : list Point) (quad : Quad) (H : Matrix3x3) (idx : list nat)
  : result unit :=
  match idx with
  | [] => Ok tt
  | i :: idx' =>
      let* mapped := applyHomography H (srcGet src i) in
      let target := quadGet quad i in
      let dx := x mapped - x target in
      let dy := y mapped - y target in
      if (DEFAULT_EPSILON <? abs dx) || (DEFAULT_EPSILON <? abs dy)
      then Err InternalConsistency
      else sanityLoop src quad H idx'
  end.

Definition sanityCheckRectToQuad (width height : float) (quad : Quad) (H : Matrix3x3)
  : result unit :=
  sanityLoop (rectCorners width height) quad H [0; 1; 2; 3]%nat.

Definition buildSystem (src : list Point) (quad : Quad) : list (list float) * list float :=
  fold_left
    (fun (st : list (list float) * list float) (i : nat) =>
       let '(A, b) := st in
       let s := srcGet src i in
       let t := quadGet quad i in
       let A := (A ++ [[x s; y s; 1; 0; 0; 0; - x t * x s; - x t * y s]])%list in
       let b := (b ++ [x t])%list in
       let A := (A ++ [[0; 0; 0; x s; y s; 1; - y t * x s; - y t * y s]])%list in
       let b := (b ++ [y t])%list in
       (A, b))
    [0; 1; 2; 3]%nat
    ([], []).

Definition computeHomographyRectToQuad
  (process : option Process) (width height : float) (quad : Quad) : result Matrix3x3 :=
  if (width <=? 0) || (height <=? 0) then Err InvalidDimensions
  else
    match validateQuad quad DEFAULT_EPSILON with
    | Invalid reason => Err (InvalidQuad reason)
    | Valid =>
        let src := rectCorners width height in
        let '(A, b) := buildSystem src quad in
        let* h := solveLinearSystem A b in
        let H := mkMatrix3x3 (getV h 0) (getV h 1) (getV h 2)
                             (getV h 3) (getV h 4) (getV h 5)
                             (getV h 6) (getV h 7) 1 in
        if negb (isProd process)
        then let* _ := sanityCheckRectToQuad width height quad H in Ok H
        else Ok H
    end.

Definition pt (a b : float) : Point := mkPoint a b.

Definition exampleQuad : Quad := mkQuad (pt 10 10) (pt 210 10) (pt 200 110) (pt 0 100).
Definition thinQuad : Quad := mkQuad (pt 0 0) (pt 4000000 0) (pt 2e-6 2) (pt 0 1).


(** *** Numbers

    [Number.isNaN], and [Math.min] and [Math.max] of two numbers: NaN
    when an argument is NaN, and -0 ordered below +0. *)

Definition isNaN (v : float) : bool := negb (v =? v).

(** [Number.isFinite]: neither NaN nor an infinity. *)
Definition isFinite (v : float) : bool := abs v <? infinity.

Definition isNegZero (v : float) : bool :=
  match classify v with
  | NZero => true
  | _ => false
  end.

Definition Math_min (a b : float) : float :=
  if isNaN a || isNaN b then nan
  else if a <? b then a
  else if b <? a then b
  else if isNegZero a then a else b.

Definition Math_max (a b : float) : float :=
  if isNaN a || isNaN b then nan
  else if a <? b then b
  else if b <? a then a
  else if isNegZero a then b else a.

(** *** quad.ts *)

Definition quadToList (q : Quad) : list Point := [q0 q; q1 q; q2 q; q3 q].

Definition quadMap (f : Point -> Point) (q : Quad) : Quad :=
  mkQuad (f (q0 q)) (f (q1 q)) (f (q2 q)) (f (q3 q)).

Definition quadFromRect (x y width height : float) : Quad :=
  mkQuad
    (mkPoint x y)
    (mkPoint (x + width) y)
    (mkPoint (x + width) (y + height))
    (mkPoint x (y + height)).

(** [quad.length]: a Quad has four entries. *)
Definition quadLength (q : Quad) : float := 4.

Definition getQuadCenter (quad : Quad) : Point :=
  let sum :=
    fold_left (fun acc point => mkPoint (x acc + x point) (y acc + y point))
              (quadToList quad) (mkPoint 0 0) in
  mkPoint (x sum / quadLength quad) (y sum / quadLength quad).






(** *** The properties of the specification, on binary64 *)

(** Some two of the four points are equal under [===]. *)
Definition DuplicatePair (quad : Quad) : Prop :=
  exists i j, (i < j < 4)%nat
    /\ (x (quadGet quad i) =? x (quadGet quad j)) = true
    /\ (y (quadGet quad i) =? y (quadGet quad j)) = true.

(** Some 3-point combination has a computed cross product of magnitude
    at most epsilon. *)
Definition CollinearTriple (quad : Quad) (epsilon : float) : Prop :=
  exists i j k, (i < j < k /\ k < 4)%nat
    /\ (abs (cross (quadGet quad i) (quadGet quad j) (quadGet quad k)) <=? epsilon) = true.

(** The shoelace sum as the loop of quadArea accumulates it, halved. *)
Definition shoelaceArea (quad : Quad) : float :=
  (0
   + (x (q0 quad) * y (q1 quad) - x (q1 quad) * y (q0 quad))
   + (x (q1 quad) * y (q2 quad) - x (q2 quad) * y (q1 quad))
   + (x (q2 quad) * y (q3 quad) - x (q3 quad) * y (q2 quad))
   + (x (q3 quad) * y (q0 quad) - x (q0 quad) * y (q3 quad))) / 2.

(** [u] and [v] lie beyond epsilon on opposite sides of zero. *)
Definition OppositeSides (u v epsilon : float) : Prop :=
  ((epsilon <? u) = true /\ (v <? - epsilon) = true)
  \/ ((u <? - epsilon) = true /\ (epsilon <? v) = true).

(** Segments ab and cd cross properly: the computed cross products put
    c, d on opposite sides of ab and a, b on opposite sides of cd. *)
Definition ProperCrossing (a b c d : Point) (epsilon : float) : Prop :=
  OppositeSides (cross a b c) (cross a b d) epsilon
  /\ OppositeSides (cross c d a) (cross c d b) epsilon.

(** One of the edge pairs (p0p1, p2p3), (p1p2, p3p0) crosses properly. *)
Definition SelfCrossing (quad : Quad) (epsilon : float) : Prop :=
  ProperCrossing (q0 quad) (q1 quad) (q2 quad) (q3 quad) epsilon
  \/ ProperCrossing (q1 quad) (q2 quad) (q3 quad) (q0 quad) epsilon.

(** The mirror image of a quad in the vertical line x = c, and in the
    line x = 0, where it negates the x coordinates. *)
Definition mirrorQuad (c : float) (quad : Quad) : Quad :=
  quadMap (fun p => mkPoint (2 * c - x p) (y p)) quad.

Definition negateX (quad : Quad) : Quad :=
  quadMap (fun p => mkPoint (- x p) (y p)) quad.

(** The matrix computeHomographyRectToQuad builds from the solution. *)
Definition matrixOfSolution (h : list float) : Matrix3x3 :=
  mkMatrix3x3 (getV h 0) (getV h 1) (getV h 2)
              (getV h 3) (getV h 4) (getV h 5)
              (getV h 6) (getV h 7) 1.




(** A number is NaN; a point or a quad has a NaN coordinate. *)
Definition pointHasNaN (p : Point) : bool := isNaN (x p) || isNaN (y p).

Definition quadHasNaN (q : Quad) : bool :=
  pointHasNaN (q0 q) || pointHasNaN (q1 q) || pointHasNaN (q2 q) || pointHasNaN (q3 q).

(** *** Inputs used as examples *)

Definition duplicateQuad : Quad := mkQuad (pt 0 0) (pt 100 0) (pt 100 0) (pt 0 50).
Definition collinearQuad : Quad := mkQuad (pt 0 0) (pt 50 0) (pt 100 0) (pt 0 50).
Definition bowtieQuad : Quad := mkQuad (pt 0 0) (pt 4 4) (pt 4 0) (pt 0 5).


(** The quad of the worked example with a NaN coordinate. *)
Definition nanQuad : Quad := mkQuad (pt 10 10) (pt 210 nan) (pt 200 110) (pt 0 100).


(** The matrix of the worked example, as computed. *)
Definition exampleMatrix : Matrix3x3 :=
  Eval vm_compute in
    match computeHomographyRectToQuad None 100 50 exampleQuad with
    | Ok M => M
    | Err _ => mkMatrix3x3 0 0 0 0 0 0 0 0 0
    end.

End Binary64.

(** ** Notions used by the properties *)

Definition matrixOfSolution (h : Vector) : Matrix3x3 :=
  mkMatrix3x3 (getV h 0) (getV h 1) (getV h 2)
              (getV h 3) (getV h 4) (getV h 5)
              (getV h 6) (getV h 7) 1.

Definition productionEnv : option Process :=
  Some (mkProcess (Some (mkProcessEnv (Some "production"%string)))).

(** ** Inputs used as examples *)

(** The quad of the specification's worked example (clockwise, valid). *)
Definition exampleQuad : Quad := mkQuad (pt 10 10) (pt 210 10) (pt 200 110) (pt 0 100).

(** A quad with two identical corners, and a bowtie whose edges p0p1
    and p2p3 cross. *)
Definition duplicateQuad : Quad := mkQuad (pt 0 0) (pt 100 0) (pt 100 0) (pt 0 50).

Definition bowtieQuad : Quad := mkQuad (pt 0 0) (pt 4 4) (pt 4 0) (pt 0 5).

(** ** apps/pwa/src/App.tsx: the geometry of the editor

    The pure part of the editor that calls the renderer: the helpers at
    the top of the file and the state updates of the pointer handlers.
    A React state update [setSurfaces(prev => ...)] is modelled by the
    function it is given. *)




Inductive ScaleMode : Set := Uniform | Free.

Definition Polygon := list Point2D.

(** The fields of the editor's [Surface] that the functions below read or
    write; the others (name, type, opacity, ...) are copied unchanged by
    every update ([{ ...surface, ... }]). *)
Module Surface.
Record t : Set := mk {
  id : string;
  quad : Quad;
  width : Q;
  height : Q;
  scaleX : Q;
  scaleY : Q;
  scaleMode : ScaleMode;
  isFullscreen : bool;
  fullscreenFit : FullscreenFit;
  fullscreenAlign : FullscreenAlign;
  zIndex : Q;
  maskPoints : option Polygon
}.




(** [{ ...surface, zIndex }]. *)
Definition withZIndex (s : t) (zIndex : Q) : t :=
  mk (id s) (quad s) (width s) (height s) (scaleX s) (scaleY s) (scaleMode s)
     (isFullscreen s) (fullscreenFit s) (fullscreenAlign s) zIndex (maskPoints s).
End Surface.
Abbreviation Surface := Surface.t.

(** [Array.prototype.findIndex]; [None] stands for the result -1. *)
Fixpoint findIndex {T : Type} (f : T -> bool) (l : list T) : option nat :=
  match l with
  | [] => None
  | a :: l' => if f a then Some 0%nat else option_map S (findIndex f l')
  end.

(** [a.splice(i, 1)] on an index inside the array: the array without its
    entry [i]. *)
Definition removeAt {T : Type} (i : nat) (l : list T) : list T :=
  (firstn i l ++ skipn (S i) l)%list.

(** [a.splice(i, 0, v)]: [v] inserted before the entry [i] (at the end
    when [i] is the length or more). *)
Definition insertAt {T : Type} (i : nat) (v : T) (l : list T) : list T :=
  (firstn i l ++ v :: skipn i l)%list.

(** [a.map((surface, index) => ({ ...surface, zIndex: index + 1 }))],
    with [index] counted from [start]. *)
Fixpoint renumber (start : nat) (l : list Surface) : list Surface :=
  match l with
  | [] => []
  | s :: l' =>
      Surface.withZIndex s (inject_Z (Z.of_nat start) + 1) :: renumber (S start) l'
  end.

Definition reorderSurfaces (fromId toId : string) (prev : list Surface) : list Surface :=
  let fromIndex := findIndex (fun surface => String.eqb (Surface.id surface) fromId) prev in
  let toIndex := findIndex (fun surface => String.eqb (Surface.id surface) toId) prev in
  match fromIndex, toIndex with
  | Some fromIndex, Some toIndex =>
      if (fromIndex =? toIndex)%nat then prev
      else
        match nth_error prev fromIndex with
        | Some moved => renumber 0 (insertAt toIndex moved (removeAt fromIndex prev))
        | None => prev
        end
  | _, _ => prev
  end.



(** [Number.isFinite] tells NaN and the infinities from the numbers; every
    number of this model is finite. *)
Definition isFinite (v : Q) : bool := true.



(** Lines 1098-1109, the mask of handleAddMaskPoint: the midpoint of the
    neighbours of position [index] inserted there; nothing happens on a
    mask of fewer than two points. *)
Definition addMaskPoint (index : nat) (points : Polygon) : Polygon :=
  if (List.length points <? 2)%nat then points
  else
    let prev := nth ((index + List.length points - 1) mod List.length points) points
                    (Point2D.mk 0 0) in
    let next := nth (index mod List.length points) points (Point2D.mk 0 0) in
    let mid := Point2D.mk ((prev.x + next.x) / 2) ((prev.y + next.y) / 2) in
    insertAt index mid points.

(** Lines 1678-1683, the double click on a mask handle: the point is
    removed unless the mask has three points or fewer. *)
Definition removeMaskPoint (index : nat) (activeMaskPoints : Polygon) : Polygon :=
  if (List.length activeMaskPoints <=? 3)%nat then activeMaskPoints
  else removeAt index activeMaskPoints.

(** A square mask. *)
Definition exampleMask : Polygon := [pt 0 0; pt 4 0; pt 4 4; pt 0 4].

(** * Properties *)

(** ** Comparisons *)


Lemma Qltb_ge (a b : Q) : Qltb a b = false <-> b <= a.
Proof.
  unfold Qltb. rewrite negb_false_iff. apply Qle_bool_iff.
Qed.


(** ** The CSS embedding *)

Lemma applyHomography_ok (H : Matrix3x3) (p r : Point2D) :
  applyHomography H p = Ok r ->
  let w' := H6 H * p.x + H7 H * p.y + H8 H in
  W_EPSILON <= Qabs w' /\ ~ w' == 0
  /\ r = pt ((H0 H * p.x + H1 H * p.y + H2 H) / w') ((H3 H * p.x + H4 H * p.y + H5 H) / w').
Proof.
  intros Hr w'. unfold applyHomography in Hr. cbv zeta in Hr. fold w' in Hr.
  destruct (Qltb (Qabs w') W_EPSILON) eqn:E; [discriminate|].
  apply Qltb_ge in E. inversion Hr; subst. split; [exact E|]. split; [|reflexivity].
  intro Hz. rewrite Hz in E.
  apply (Qlt_not_le (Qabs 0) W_EPSILON); [reflexivity | exact E].
Qed.

(** C2: whenever applyHomography(H, p) succeeds, the product of the
    4x4 matrix homographyToCssMatrix3d(H) with (p.x, p.y, 0, 1), divided
    by its w-component, is the point applyHomography(H, p). *)
Theorem cssMatrix_roundtrip (H : Matrix3x3) (p r : Point2D) :
  applyHomography H p = Ok r ->
  Peq (perspectiveDivide
         (applyMatrix4x4 (homographyToCssMatrix3d H) (mkVec4 p.x p.y 0 1)))
      r.
Proof.
  intro Hr. apply applyHomography_ok in Hr. destruct Hr as (_ & Hw & ->).
  unfold Peq, perspectiveDivide, applyMatrix4x4, homographyToCssMatrix3d. simpl.
  assert (Hw' : ~ H6 H * p.x + H7 H * p.y + 0 * 0 + H8 H * 1 == 0).
  { intro E. apply Hw. rewrite <- E. ring. }
  split; field; auto.
Qed.

Lemma cssMatrix_roundtrip_witness :
  Peq (perspectiveDivide
         (applyMatrix4x4
            (homographyToCssMatrix3d (mkMatrix3x3 2 0 1 0 3 1 0 0 2))
            (mkVec4 10 20 0 1)))
      (pt (21 # 2) (61 # 2)).
Proof.
  apply (cssMatrix_roundtrip (mkMatrix3x3 2 0 1 0 3 1 0 0 2) (pt 10 20)).
  vm_compute. reflexivity.
Defined.

(** ** Case analysis on a test *)

Ltac reflect_bool H :=
  match type of H with
  | (?b = true <-> ?P) =>
      let E := fresh "E" in
      destruct b eqn:E;
      [ assert P by (apply H; reflexivity)
      | assert (~ P) by (let HP := fresh in intro HP; apply H in HP; discriminate) ];
      clear H
  end.

(** ** solveLinearSystem *)

(** *** One iteration of the outer loop *)



(** *** The whole loop *)



(** *** Which errors can come from where *)






(** The dimension check comes first: a bad quad with a bad width reports
    the width. *)
Example computeHomographyRectToQuad_dimensions_first :
  computeHomographyRectToQuad None 0 50 bowtieQuad = Err InvalidDimensions
  /\ computeHomographyRectToQuad None 100 (- 1) duplicateQuad = Err InvalidDimensions
  /\ computeHomographyRectToQuad None 100 50 duplicateQuad = Err (InvalidQuad DuplicatePoint).
Proof. vm_compute. repeat split. Qed.

(** * Further properties of the code *)

(** ** The editor: scale factors *)






(** ** The editor: dragging a handle *)



(** ** The editor: the order of the surfaces *)

Lemma findIndex_some {T : Type} (f : T -> bool) (l : list T) (i : nat) :
  findIndex f l = Some i -> exists v, nth_error l i = Some v /\ f v = true.
Proof.
  revert i. induction l as [|a l IH]; intros i Hf; simpl in Hf; [discriminate|].
  destruct (f a) eqn:Ea.
  - inversion Hf; subst. exists a. split; [reflexivity | exact Ea].
  - destruct (findIndex f l) as [k|]; simpl in Hf; [|discriminate].
    inversion Hf; subst. destruct (IH k eq_refl) as (v & Hv & Hfv).
    exists v. split; [exact Hv | exact Hfv].
Qed.

Lemma nth_error_split_at {T : Type} (l : list T) (i : nat) (v : T) :
  nth_error l i = Some v -> l = (firstn i l ++ v :: skipn (S i) l)%list.
Proof.
  revert i. induction l as [|a l IH]; intros i Hn.
  - destruct i; discriminate.
  - destruct i as [|i]; simpl in *.
    + inversion Hn. reflexivity.
    + f_equal. apply IH, Hn.
Qed.

Lemma removeAt_insert_permutation {T : Type} (l : list T) (i j : nat) (v : T) :
  nth_error l i = Some v -> Permutation (insertAt j v (removeAt i l)) l.
Proof.
  intro Hn. unfold insertAt.
  apply Permutation_trans with (v :: removeAt i l).
  - apply Permutation_sym.
    rewrite <- (firstn_skipn j (removeAt i l)) at 1. apply Permutation_middle.
  - rewrite (nth_error_split_at l i v Hn) at 2. unfold removeAt.
    apply Permutation_middle.
Qed.

Lemma removeAt_length {T : Type} (l : list T) (i : nat) :
  (i < List.length l)%nat -> List.length (removeAt i l) = (List.length l - 1)%nat.
Proof.
  intro Hi. unfold removeAt. rewrite length_app, length_firstn, length_skipn. lia.
Qed.

Lemma insertAt_length {T : Type} (l : list T) (j : nat) (v : T) :
  List.length (insertAt j v l) = S (List.length l).
Proof.
  unfold insertAt. rewrite length_app. simpl. rewrite length_firstn, length_skipn. lia.
Qed.

Lemma insertAt_nth {T : Type} (l : list T) (j : nat) (v : T) :
  (j <= List.length l)%nat -> nth_error (insertAt j v l) j = Some v.
Proof.
  intro Hj. unfold insertAt.
  rewrite nth_error_app2 by (rewrite length_firstn; lia).
  rewrite length_firstn. replace (j - Nat.min j (List.length l))%nat with 0%nat by lia.
  reflexivity.
Qed.

Lemma renumber_length (k : nat) (l : list Surface) :
  List.length (renumber k l) = List.length l.
Proof.
  revert k. induction l as [|s l IH]; intro k; simpl; [reflexivity|].
  rewrite IH. reflexivity.
Qed.

Lemma renumber_nth (k n : nat) (l : list Surface) :
  nth_error (renumber k l) n
  = option_map (fun s => Surface.withZIndex s (inject_Z (Z.of_nat (k + n)) + 1))
               (nth_error l n).
Proof.
  revert k n. induction l as [|s l IH]; intros k n.
  - destruct n; reflexivity.
  - destruct n as [|n]; simpl.
    + rewrite Nat.add_0_r. reflexivity.
    + rewrite IH. replace (S k + n)%nat with (k + S n)%nat by lia. reflexivity.
Qed.

Lemma renumber_erase (k : nat) (l : list Surface) :
  map (fun s => Surface.withZIndex s 0) (renumber k l)
  = map (fun s => Surface.withZIndex s 0) l.
Proof.
  revert k. induction l as [|s l IH]; intro k; simpl; [reflexivity|].
  rewrite IH. reflexivity.
Qed.

(** X23: reorderSurfaces keeps the surfaces and changes nothing of them
    but zIndex.  When both ids are found at different positions, the
    surface of fromId ends up at the position the surface of toId had,
    and every surface gets its position plus one as zIndex; when an id is
    unknown or both are the same surface, the list is returned as it is,
    zIndex included. *)
Theorem reorderSurfaces_spec (fromId toId : string) (prev : list Surface) :
  let next := reorderSurfaces fromId toId prev in
  let fromIndex := findIndex (fun s => String.eqb (Surface.id s) fromId) prev in
  let toIndex := findIndex (fun s => String.eqb (Surface.id s) toId) prev in
  Permutation (map (fun s => Surface.withZIndex s 0) next)
              (map (fun s => Surface.withZIndex s 0) prev)
  /\ List.length next = List.length prev
  /\ (forall i j, fromIndex = Some i -> toIndex = Some j -> i <> j ->
        (exists s, nth_error next j = Some s /\ Surface.id s = fromId)
        /\ forall n s, nth_error next n = Some s ->
             Surface.zIndex s = inject_Z (Z.of_nat n) + 1)
  /\ (fromIndex = None \/ toIndex = None \/ fromIndex = toIndex -> next = prev).
Proof.
  intros next fromIndex toIndex. unfold next, reorderSurfaces. fold fromIndex toIndex.
  destruct fromIndex as [i|] eqn:Hfrom.
  2:{ split; [apply Permutation_refl|]. split; [reflexivity|].
      split; [intros i' j' Hc; discriminate | reflexivity]. }
  destruct toIndex as [j|] eqn:Hto.
  2:{ split; [apply Permutation_refl|]. split; [reflexivity|].
      split; [intros i' j' _ Hc; discriminate | reflexivity]. }
  destruct (findIndex_some _ _ _ Hfrom) as (moved & Hmoved & Hid).
  apply String.eqb_eq in Hid. rewrite Hmoved.
  assert (Hi : (i < List.length prev)%nat).
  { apply nth_error_Some. rewrite Hmoved. discriminate. }
  assert (Hj : (j < List.length prev)%nat).
  { destruct (findIndex_some _ _ _ Hto) as (t & Ht & _).
    apply nth_error_Some. rewrite Ht. discriminate. }
  destruct (Nat.eqb_spec i j) as [Heq|Hne].
  - split; [apply Permutation_refl|]. split; [reflexivity|].
    split; [|reflexivity]. intros i' j' Ei Ej Hc.
    inversion Ei; inversion Ej; subst. contradiction.
  - split; [|split; [|split]].
    + rewrite renumber_erase. apply Permutation_map.
      apply removeAt_insert_permutation, Hmoved.
    + rewrite renumber_length, insertAt_length, removeAt_length by exact Hi. lia.
    + intros i' j' Ei Ej _. inversion Ei; inversion Ej; subst i' j'. split.
      * exists (Surface.withZIndex moved (inject_Z (Z.of_nat (0 + j)) + 1)).
        split; [|exact Hid].
        rewrite renumber_nth, insertAt_nth; [reflexivity|].
        rewrite removeAt_length by exact Hi. lia.
      * intros n s Hn. rewrite renumber_nth in Hn.
        destruct (nth_error _ n) as [t|]; simpl in Hn; [|discriminate].
        inversion Hn. reflexivity.
    + intros [Hc|[Hc|Hc]]; try discriminate. inversion Hc. contradiction.
Qed.

(** Three surfaces, the first moved to the place of the third. *)
Example reorderSurfaces_example :
  let mk := fun (id : string) (z : Q) => Surface.mk id exampleQuad 100 50 1 1 Uniform false Contain Center z
                                   None in
  reorderSurfaces "a" "c" [mk "a"%string 1; mk "b"%string 2; mk "c"%string 3]
  = [mk "b"%string (0 + 1); mk "c"%string (1 + 1); mk "a"%string (2 + 1)].
Proof. reflexivity. Qed.

(** ** The editor: the mask polygon *)

Lemma nth_insertAt_before {T : Type} (l : list T) (j n : nat) (v d : T) :
  (n < j)%nat -> (j <= List.length l)%nat -> nth n (insertAt j v l) d = nth n l d.
Proof.
  intros Hn Hj. unfold insertAt.
  rewrite app_nth1 by (rewrite length_firstn; lia).
  rewrite <- (firstn_skipn j l) at 2.
  rewrite app_nth1 by (rewrite length_firstn; lia). reflexivity.
Qed.

Lemma nth_insertAt_at {T : Type} (l : list T) (j : nat) (v d : T) :
  (j <= List.length l)%nat -> nth j (insertAt j v l) d = v.
Proof.
  intro Hj. unfold insertAt.
  rewrite app_nth2 by (rewrite length_firstn; lia).
  rewrite length_firstn. replace (j - Nat.min j (List.length l))%nat with 0%nat by lia.
  reflexivity.
Qed.

Lemma nth_insertAt_after {T : Type} (l : list T) (j n : nat) (v d : T) :
  (j <= n)%nat -> (j <= List.length l)%nat -> nth (S n) (insertAt j v l) d = nth n l d.
Proof.
  intros Hn Hj. unfold insertAt.
  rewrite app_nth2 by (rewrite length_firstn; lia).
  rewrite length_firstn. replace (S n - Nat.min j (List.length l))%nat with (S (n - j)) by lia.
  cbn [nth]. rewrite <- (firstn_skipn j l) at 2.
  rewrite app_nth2 by (rewrite length_firstn; lia).
  rewrite length_firstn. replace (n - Nat.min j (List.length l))%nat with (n - j)%nat by lia.
  reflexivity.
Qed.

Lemma removeAt_insertAt {T : Type} (l : list T) (j : nat) (v : T) :
  (j <= List.length l)%nat -> removeAt j (insertAt j v l) = l.
Proof.
  intro Hj. unfold removeAt, insertAt.
  assert (Hlen : List.length (firstn j l) = j) by (rewrite length_firstn; lia).
  rewrite firstn_app, Hlen, Nat.sub_diag, firstn_O, app_nil_r.
  rewrite firstn_all2 by (rewrite Hlen; lia).
  rewrite skipn_app, Hlen.
  rewrite skipn_all2 by (rewrite Hlen; lia).
  replace (S j - j)%nat with 1%nat by lia. cbn [skipn app].
  apply firstn_skipn.
Qed.

(** X28: on a mask of n >= 2 points, addMaskPoint at a position
    index <= n gives a mask of n + 1 points whose entry at index is the
    midpoint of its two neighbours in the new polygon (cyclically), and
    removeMaskPoint at the same position gives the mask back when it had
    at least three points. *)
Theorem addMaskPoint_spec (index : nat) (points : Polygon) :
  (2 <= List.length points)%nat -> (index <= List.length points)%nat ->
  let n := List.length points in
  let updated := addMaskPoint index points in
  let d := Point2D.mk 0 0 in
  let before := nth ((index + n) mod (n + 1)) updated d in
  let after := nth ((index + 1) mod (n + 1)) updated d in
  List.length updated = (n + 1)%nat
  /\ nth index updated d
     = Point2D.mk ((before.x + after.x) / 2) ((before.y + after.y) / 2)
  /\ ((3 <= n)%nat -> removeMaskPoint index updated = points).
Proof.
  intros Hn Hi n updated d before after.
  change (2 <= n)%nat in Hn. change (index <= n)%nat in Hi.
  assert (Hupd : updated
                 = insertAt index
                     (Point2D.mk
                        (((nth ((index + n - 1) mod n) points d).x
                          + (nth (index mod n) points d).x) / 2)
                        (((nth ((index + n - 1) mod n) points d).y
                          + (nth (index mod n) points d).y) / 2))
                     points).
  { unfold updated, addMaskPoint. fold n.
    destruct (Nat.ltb_spec n 2) as [Hlt|_]; [lia | reflexivity]. }
  assert (Hbefore : before = nth ((index + n - 1) mod n) points d).
  { unfold before. rewrite Hupd.
    destruct index as [|k].
    - rewrite Nat.add_0_l, Nat.mod_small by lia.
      replace n with (S (n - 1)) at 1 by lia.
      rewrite nth_insertAt_after by lia.
      replace (0 + n - 1)%nat with (n - 1)%nat by lia.
      rewrite Nat.mod_small by lia. reflexivity.
    - replace (S k + n)%nat with (k + 1 * (n + 1))%nat by lia.
      rewrite Nat.Div0.mod_add, Nat.mod_small by lia.
      rewrite nth_insertAt_before by (fold n; lia).
      replace (k + 1 * (n + 1) - 1)%nat with (k + 1 * n)%nat by lia.
      rewrite Nat.Div0.mod_add, Nat.mod_small by lia. reflexivity. }
  assert (Hafter : after = nth (index mod n) points d).
  { unfold after. rewrite Hupd.
    destruct (Nat.eq_dec index n) as [->|Hne].
    - rewrite Nat.Div0.mod_same.
      replace (n + 1)%nat with (S n) by lia. rewrite Nat.Div0.mod_same.
      rewrite nth_insertAt_before by (fold n; lia). reflexivity.
    - rewrite (Nat.mod_small (index + 1)), (Nat.mod_small index) by lia.
      replace (index + 1)%nat with (S index) by lia.
      rewrite nth_insertAt_after by (fold n; lia). reflexivity. }
  split; [|split].
  - rewrite Hupd, insertAt_length. fold n. lia.
  - rewrite Hbefore, Hafter. rewrite Hupd at 1.
    rewrite nth_insertAt_at by exact Hi. reflexivity.
  - intro H3. unfold removeMaskPoint. rewrite Hupd, insertAt_length. fold n.
    destruct (Nat.leb_spec (S n) 3) as [Hle|_]; [lia|].
    apply removeAt_insertAt. exact Hi.
Qed.

Lemma addMaskPoint_spec_witness :
  List.length (addMaskPoint 4 exampleMask) = (4 + 1)%nat
  /\ nth 4 (addMaskPoint 4 exampleMask) (Point2D.mk 0 0)
     = Point2D.mk
         (((nth ((4 + 4) mod (4 + 1)) (addMaskPoint 4 exampleMask) (Point2D.mk 0 0)).x
           + (nth ((4 + 1) mod (4 + 1)) (addMaskPoint 4 exampleMask) (Point2D.mk 0 0)).x)
          / 2)
         (((nth ((4 + 4) mod (4 + 1)) (addMaskPoint 4 exampleMask) (Point2D.mk 0 0)).y
           + (nth ((4 + 1) mod (4 + 1)) (addMaskPoint 4 exampleMask) (Point2D.mk 0 0)).y)
          / 2)
  /\ ((3 <= 4)%nat -> removeMaskPoint 4 (addMaskPoint 4 exampleMask) = exampleMask).
Proof.
  apply (addMaskPoint_spec 4 exampleMask); simpl; lia.
Defined.

(** * Properties on binary64 *)

Section OnBinary64.

Import Binary64.
Local Open Scope float_scope.

(** ** binary64 numbers

    The comparisons and operations of the engine's numbers, from their
    specification over [spec_float]. *)

Lemma isNaN_spec (a : float) : isNaN a = true <-> Prim2SF a = S754_nan.
Proof.
  unfold isNaN. rewrite FloatAxioms.eqb_spec. unfold SFeqb.
  pose proof (Prim2SF_valid a) as Hv. unfold FloatAxioms.valid_binary in Hv.
  destruct (Prim2SF a) as [s|s| |s m e]; cbn.
  - split; discriminate.
  - destruct s; split; discriminate.
  - split; reflexivity.
  - destruct s; rewrite Z.compare_refl, Pos.compare_cont_refl; split; discriminate.
Qed.

Lemma isNaN_nan : isNaN nan = true.
Proof. reflexivity. Qed.

Lemma isNaN_eq (a : float) : isNaN a = true <-> a = nan.
Proof.
  rewrite isNaN_spec. split.
  - intro H. apply Prim2SF_inj. rewrite H. reflexivity.
  - intros ->. reflexivity.
Qed.

Lemma SFcompare_nan_l (b : spec_float) : SFcompare S754_nan b = None.
Proof. reflexivity. Qed.

Lemma SFcompare_nan_r (a : spec_float) : SFcompare a S754_nan = None.
Proof. destruct a as [s|s| |s m e]; reflexivity. Qed.


Lemma SFcompare_antisym (a b : spec_float) :
  SFcompare b a = option_map CompOpp (SFcompare a b).
Proof.
  destruct a as [s|s| |s m e], b as [s'|s'| |s' m' e']; cbn;
    try reflexivity; try (destruct s; reflexivity); try (destruct s'; reflexivity);
    try (destruct s, s'; reflexivity).
  assert (Hm : Pos.compare_cont Eq m' m = CompOpp (Pos.compare_cont Eq m m'))
    by (symmetry; apply (Pos.compare_cont_antisym m m' Eq)).
  rewrite (Z.compare_antisym e e'), Hm.
  destruct s, s'; cbn; try reflexivity;
    destruct (e ?= e')%Z; cbn; try reflexivity;
    destruct (Pos.compare_cont Eq m m'); reflexivity.
Qed.







(** A comparison with NaN is false. *)
Lemma ltb_nan_l (a b : float) : isNaN a = true -> (a <? b) = false.
Proof. intro H. apply isNaN_spec in H. rewrite FloatAxioms.ltb_spec, H. reflexivity. Qed.

Lemma ltb_nan_r (a b : float) : isNaN b = true -> (a <? b) = false.
Proof.
  intro H. apply isNaN_spec in H. rewrite FloatAxioms.ltb_spec, H. unfold SFltb.
  rewrite SFcompare_nan_r. reflexivity.
Qed.

Lemma leb_nan_l (a b : float) : isNaN a = true -> (a <=? b) = false.
Proof. intro H. apply isNaN_spec in H. rewrite FloatAxioms.leb_spec, H. reflexivity. Qed.

Lemma leb_nan_r (a b : float) : isNaN b = true -> (a <=? b) = false.
Proof.
  intro H. apply isNaN_spec in H. rewrite FloatAxioms.leb_spec, H. unfold SFleb.
  rewrite SFcompare_nan_r. reflexivity.
Qed.

Lemma eqb_nan_l (a b : float) : isNaN a = true -> (a =? b) = false.
Proof. intro H. apply isNaN_spec in H. rewrite FloatAxioms.eqb_spec, H. reflexivity. Qed.

(** NaN in, NaN out. *)
Lemma add_nan_l (a b : float) : isNaN a = true -> isNaN (a + b) = true.
Proof. rewrite !isNaN_spec, FloatAxioms.add_spec. intros ->. reflexivity. Qed.

Lemma add_nan_r (a b : float) : isNaN b = true -> isNaN (a + b) = true.
Proof.
  rewrite !isNaN_spec, FloatAxioms.add_spec. intros ->.
  destruct (Prim2SF a) as [s|s| |s m e]; reflexivity.
Qed.

Lemma sub_nan_l (a b : float) : isNaN a = true -> isNaN (a - b) = true.
Proof. rewrite !isNaN_spec, FloatAxioms.sub_spec. intros ->. reflexivity. Qed.

Lemma sub_nan_r (a b : float) : isNaN b = true -> isNaN (a - b) = true.
Proof.
  rewrite !isNaN_spec, FloatAxioms.sub_spec. intros ->.
  destruct (Prim2SF a) as [s|s| |s m e]; reflexivity.
Qed.

Lemma mul_nan_l (a b : float) : isNaN a = true -> isNaN (a * b) = true.
Proof. rewrite !isNaN_spec, FloatAxioms.mul_spec. intros ->. reflexivity. Qed.

Lemma mul_nan_r (a b : float) : isNaN b = true -> isNaN (a * b) = true.
Proof.
  rewrite !isNaN_spec, FloatAxioms.mul_spec. intros ->.
  destruct (Prim2SF a) as [s|s| |s m e]; reflexivity.
Qed.

Lemma div_nan_l (a b : float) : isNaN a = true -> isNaN (a / b) = true.
Proof. rewrite !isNaN_spec, FloatAxioms.div_spec. intros ->. reflexivity. Qed.

Lemma div_nan_r (a b : float) : isNaN b = true -> isNaN (a / b) = true.
Proof.
  rewrite !isNaN_spec, FloatAxioms.div_spec. intros ->.
  destruct (Prim2SF a) as [s|s| |s m e]; reflexivity.
Qed.


Lemma opp_nan (a : float) : isNaN a = true -> isNaN (- a) = true.
Proof. rewrite !isNaN_spec, FloatAxioms.opp_spec. intros ->. reflexivity. Qed.




(** ** Negation

    Rounding is symmetric: negating the operands negates the result,
    except that a sum which cancels is +0 either way. *)

Lemma opp_involutive (a : float) : - - a = a.
Proof.
  apply Prim2SF_inj. rewrite !FloatAxioms.opp_spec.
  destruct (Prim2SF a) as [s|s| |s m e]; cbn; rewrite ?negb_involutive; reflexivity.
Qed.




















(** ** Zero *)

Lemma isFinite_spec (a : float) :
  isFinite a = true <->
  (exists s, Prim2SF a = S754_zero s) \/ (exists s m e, Prim2SF a = S754_finite s m e).
Proof.
  unfold isFinite. rewrite FloatAxioms.ltb_spec, FloatAxioms.abs_spec.
  change (Prim2SF infinity) with (S754_infinity false). unfold SFltb.
  destruct (Prim2SF a) as [s|s| |s m e]; cbn.
  - split; [intros _; left; exists s; reflexivity | reflexivity].
  - split; [discriminate | intros [[s' H]|(s' & m' & e' & H)]; discriminate].
  - split; [discriminate | intros [[s' H]|(s' & m' & e' & H)]; discriminate].
  - split; [intros _; right; exists s, m, e; reflexivity | reflexivity].
Qed.

(** A finite number minus itself is +0. *)
Lemma sub_diag (a : float) : isFinite a = true -> a - a = 0.
Proof.
  intro Hf. apply isFinite_spec in Hf.
  apply Prim2SF_inj. rewrite FloatAxioms.sub_spec. unfold SF64sub.
  destruct Hf as [[s H]|(s & m & e & H)]; rewrite H.
  - destruct s; reflexivity.
  - cbn [SFsub]. rewrite Z.sub_diag. reflexivity.
Qed.



(** ** Math.min and Math.max *)



Lemma Math_min_nan (a b : float) :
  isNaN a = true \/ isNaN b = true -> Math_min a b = nan.
Proof.
  intro H. unfold Math_min.
  destruct (isNaN a), (isNaN b); try reflexivity. destruct H; discriminate.
Qed.

Lemma Math_max_nan (a b : float) :
  isNaN a = true \/ isNaN b = true -> Math_max a b = nan.
Proof.
  intro H. unfold Math_max.
  destruct (isNaN a), (isNaN b); try reflexivity. destruct H; discriminate.
Qed.

(** ** Magnitudes *)

Lemma SFcompare_opp (a b : spec_float) :
  SFcompare (SFopp a) (SFopp b) = SFcompare b a.
Proof.
  rewrite (SFcompare_antisym a b).
  destruct a as [s|s| |s m e], b as [s'|s'| |s' m' e']; cbn;
    try reflexivity; try (destruct s; reflexivity); try (destruct s'; reflexivity);
    try (destruct s, s'; reflexivity).
  destruct s, s'; cbn; try reflexivity;
    destruct (e ?= e')%Z; cbn; try reflexivity;
    destruct (Pos.compare_cont Eq m m'); reflexivity.
Qed.

Lemma ltb_opp (a b : float) : (a <? - b) = (b <? - a).
Proof.
  rewrite !FloatAxioms.ltb_spec, !FloatAxioms.opp_spec. unfold SFltb.
  rewrite <- (SFcompare_opp (SFopp (Prim2SF a)) (Prim2SF b)).
  replace (SFopp (SFopp (Prim2SF a))) with (Prim2SF a); [reflexivity|].
  destruct (Prim2SF a) as [s|s| |s m e]; cbn; rewrite ?negb_involutive; reflexivity.
Qed.

Lemma abs_opp (a : float) : abs (- a) = abs a.
Proof.
  apply Prim2SF_inj. rewrite !FloatAxioms.abs_spec, FloatAxioms.opp_spec.
  destruct (Prim2SF a) as [s|s| |s m e]; reflexivity.
Qed.

(** A number above [e] has a magnitude above [e]. *)
Lemma ltb_abs_leb_false (u e : float) : (e <? u) = true -> (abs u <=? e) = false.
Proof.
  intro H. destruct (abs u <=? e) eqn:E; [|reflexivity]. exfalso.
  revert H E.
  rewrite FloatAxioms.ltb_spec, FloatAxioms.leb_spec, FloatAxioms.abs_spec.
  unfold SFltb, SFleb.
  destruct (Prim2SF u) as [s|s| |s m x] eqn:Eu.
  - (* zero: abs compares like the number itself *)
    destruct (Prim2SF e) as [s'|s'| |s' m' x']; cbn; try congruence;
      destruct s'; cbn; congruence.
  - destruct s.
    + destruct (Prim2SF e) as [s'|s'| |s' m' x']; cbn; try congruence;
        destruct s'; cbn; congruence.
    + cbn [SFabs]. rewrite (SFcompare_antisym (Prim2SF e) (S754_infinity false)).
      destruct (SFcompare (Prim2SF e) (S754_infinity false)) as [[| |]|]; cbn; congruence.
  - rewrite SFcompare_nan_r. congruence.
  - destruct s.
    + destruct (Prim2SF e) as [s'|s'| |s' m' x']; cbn; try congruence;
        destruct s'; cbn; congruence.
    + cbn [SFabs]. rewrite (SFcompare_antisym (Prim2SF e) (S754_finite false m x)).
      destruct (SFcompare (Prim2SF e) (S754_finite false m x)) as [[| |]|]; cbn; congruence.
Qed.

Lemma ltb_opp_abs_leb_false (u e : float) : (u <? - e) = true -> (abs u <=? e) = false.
Proof.
  intro H. rewrite ltb_opp in H. rewrite <- abs_opp.
  apply ltb_abs_leb_false. exact H.
Qed.


(** ** applyHomography *)

(** C5: applyHomography computes x', y', w' by the three row formulas,
    fails with DegenerateProjection exactly when |w'| < 1e-12 and
    otherwise returns (x'/w', y'/w'); every operation is the binary64
    one and 1e-12 is the binary64 number the source literal denotes. *)
Theorem binary64_applyHomography_spec (H : Matrix3x3) (p : Point) :
  let x' := H0 H * x p + H1 H * y p + H2 H in
  let y' := H3 H * x p + H4 H * y p + H5 H in
  let w' := H6 H * x p + H7 H * y p + H8 H in
  (applyHomography H p = Err DegenerateProjection <-> (abs w' <? 1e-12) = true)
  /\ (forall e, applyHomography H p = Err e -> e = DegenerateProjection)
  /\ ((abs w' <? 1e-12) = false -> applyHomography H p = Ok (mkPoint (x' / w') (y' / w'))).
Proof.
  intros x' y' w'. unfold applyHomography. fold x' y' w'.
  change W_EPSILON with 1e-12.
  destruct (abs w' <? 1e-12) eqn:E.
  - split; [|split].
    + split; auto.
    + intros e He. congruence.
    + discriminate.
  - split; [|split].
    + split; discriminate.
    + intros e He. discriminate.
    + intros _. reflexivity.
Qed.

Lemma binary64_applyHomography_spec_witness :
  applyHomography (mkMatrix3x3 1 0 0 0 1 0 0 0 2) (pt 4 6) = Ok (pt 2 3)
  /\ applyHomography (mkMatrix3x3 1 0 0 0 1 0 1 0 0) (pt 0 5) = Err DegenerateProjection.
Proof.
  split.
  - apply (proj2 (proj2 (binary64_applyHomography_spec (mkMatrix3x3 1 0 0 0 1 0 0 0 2) (pt 4 6)))).
    reflexivity.
  - apply (proj1 (binary64_applyHomography_spec (mkMatrix3x3 1 0 0 0 1 0 1 0 0) (pt 0 5))).
    reflexivity.
Defined.

(** The guard compares with the binary64 number nearest to 10^-12, which
    lies below 10^-12: a w' equal to it is not rejected.  A NaN w' is not
    rejected either. *)
Example binary64_applyHomography_at_the_guard :
  applyHomography (mkMatrix3x3 1 0 0 0 1 0 0 0 1e-12) (pt 1 1)
  = Ok (pt (1 / 1e-12) (1 / 1e-12))
  /\ applyHomography (mkMatrix3x3 1 0 0 0 1 0 0 0 nan) (pt 1 1) = Ok (pt nan nan).
Proof. split; reflexivity. Qed.

(** ** quad.ts *)







(** ** computeFullscreenQuad *)













(** ** validateQuad *)

Lemma hasDuplicatePoints_iff (quad : Quad) :
  hasDuplicatePoints quad = true <-> DuplicatePair quad.
Proof.
  unfold hasDuplicatePoints, DuplicatePair, pointsEqual. simpl.
  rewrite !orb_false_r, !orb_true_iff, !andb_true_iff.
  split.
  - intros [[H|[H|H]]|[[H|H]|H]].
    + exists 0%nat, 1%nat. split; [lia | exact H].
    + exists 0%nat, 2%nat. split; [lia | exact H].
    + exists 0%nat, 3%nat. split; [lia | exact H].
    + exists 1%nat, 2%nat. split; [lia | exact H].
    + exists 1%nat, 3%nat. split; [lia | exact H].
    + exists 2%nat, 3%nat. split; [lia | exact H].
  - intros (i & j & Hij & H).
    destruct i as [|[|[|i]]]; destruct j as [|[|[|[|j]]]]; try lia; simpl in H; tauto.
Qed.

Lemma hasCollinearTriplet_iff (quad : Quad) (epsilon : float) :
  hasCollinearTriplet quad epsilon = true <-> CollinearTriple quad epsilon.
Proof.
  unfold hasCollinearTriplet, CollinearTriple. simpl.
  rewrite !orb_false_r, !orb_true_iff.
  split.
  - intros [H|[H|[H|H]]].
    + exists 0%nat, 1%nat, 2%nat. split; [lia | exact H].
    + exists 0%nat, 1%nat, 3%nat. split; [lia | exact H].
    + exists 0%nat, 2%nat, 3%nat. split; [lia | exact H].
    + exists 1%nat, 2%nat, 3%nat. split; [lia | exact H].
  - intros (i & j & k & Hijk & H).
    destruct i as [|[|i]]; destruct j as [|[|[|j]]]; destruct k as [|[|[|[|k]]]];
      try lia; simpl in H; tauto.
Qed.

Lemma quadArea_shoelace (quad : Quad) : quadArea quad = shoelaceArea quad.
Proof. reflexivity. Qed.

Lemma OppositeSides_iff (u v epsilon : float) :
  ((epsilon <? u) && (v <? - epsilon)) || ((u <? - epsilon) && (epsilon <? v)) = true
  <-> OppositeSides u v epsilon.
Proof.
  unfold OppositeSides. rewrite orb_true_iff, !andb_true_iff. tauto.
Qed.

Lemma OppositeSides_beyond (u v epsilon : float) :
  OppositeSides u v epsilon -> (abs u <=? epsilon) = false.
Proof.
  intros [[Hu _]|[Hu _]].
  - apply ltb_abs_leb_false. exact Hu.
  - apply ltb_opp_abs_leb_false. exact Hu.
Qed.

Lemma segmentsIntersect_iff (a b c d : Point) (epsilon : float) :
  segmentsIntersect a b c d epsilon = true <-> ProperCrossing a b c d epsilon.
Proof.
  unfold segmentsIntersect, ProperCrossing. cbv zeta.
  destruct ((abs (cross a b c) <=? epsilon) && (abs (cross a b d) <=? epsilon)
            && (abs (cross c d a) <=? epsilon)
            && (abs (cross c d b) <=? epsilon)) eqn:Hnear.
  - rewrite !andb_true_iff in Hnear.
    split; [discriminate|].
    intros [H _]. exfalso. apply OppositeSides_beyond in H.
    destruct Hnear as [[[Hn _] _] _]. congruence.
  - rewrite <- !OppositeSides_iff.
    destruct (((epsilon <? cross a b c) && (cross a b d <? - epsilon))
              || ((cross a b c <? - epsilon) && (epsilon <? cross a b d))).
    + tauto.
    + split; [discriminate | intros [H _]; discriminate].
Qed.

Lemma isSelfIntersecting_iff (quad : Quad) (epsilon : float) :
  isSelfIntersecting quad epsilon = true <-> SelfCrossing quad epsilon.
Proof.
  unfold isSelfIntersecting, SelfCrossing.
  rewrite orb_true_iff, !segmentsIntersect_iff. tauto.
Qed.


Lemma validateQuad_valid_iff (quad : Quad) (epsilon : float) :
  validateQuad quad epsilon = Valid
  <-> ~ DuplicatePair quad /\ ~ CollinearTriple quad epsilon
      /\ (abs (shoelaceArea quad) <=? epsilon) = false /\ (0 <? shoelaceArea quad) = true
      /\ ~ SelfCrossing quad epsilon.
Proof.
  pose proof (hasDuplicatePoints_iff quad) as Hd.
  pose proof (hasCollinearTriplet_iff quad epsilon) as Hc.
  pose proof (isSelfIntersecting_iff quad epsilon) as Hs.
  unfold validateQuad, isClockwiseQuad. cbv zeta. rewrite quadArea_shoelace.
  reflect_bool Hd; reflect_bool Hc; reflect_bool Hs;
    destruct (abs (shoelaceArea quad) <=? epsilon);
    destruct (0 <? shoelaceArea quad);
    simpl; (split; [try discriminate | try tauto]);
    try (intros (? & ? & ? & ? & ?); try discriminate; tauto); tauto.
Qed.





(** The four rejections, evaluated: each quad stops at its own check. *)
Example binary64_validateQuad_rejections :
  validateQuad duplicateQuad DEFAULT_EPSILON = Invalid DuplicatePoint
  /\ validateQuad collinearQuad DEFAULT_EPSILON = Invalid CollinearPoints
  /\ validateQuad (mirrorQuad 105 exampleQuad) DEFAULT_EPSILON = Invalid WrongOrientation
  /\ validateQuad (negateX exampleQuad) DEFAULT_EPSILON = Invalid WrongOrientation
  /\ validateQuad bowtieQuad DEFAULT_EPSILON = Invalid SelfIntersecting
  /\ validateQuad exampleQuad DEFAULT_EPSILON = Valid.
Proof. vm_compute. repeat split. Qed.


(** ** computeHomographyRectToQuad *)



Lemma binary64_applyHomography_err (M : Matrix3x3) (p : Point) (e : Error) :
  applyHomography M p = Err e -> e = DegenerateProjection.
Proof.
  unfold applyHomography. cbv zeta.
  destruct (abs _ <? W_EPSILON); [|discriminate].
  intro E. inversion E. reflexivity.
Qed.

Lemma binary64_sanityLoop_err (src : list Point) (quad : Quad) (M : Matrix3x3) (idx : list nat)
  (e : Error) :
  sanityLoop src quad M idx = Err e -> e = DegenerateProjection \/ e = InternalConsistency.
Proof.
  induction idx as [|i idx IH]; cbn [sanityLoop]; [discriminate|].
  destruct (applyHomography M (srcGet src i)) as [m|e'] eqn:Hm; cbn [bind].
  - destruct ((DEFAULT_EPSILON <? abs (x m - x (quadGet quad i)))
              || (DEFAULT_EPSILON <? abs (y m - y (quadGet quad i)))).
    + intro E. inversion E. right. reflexivity.
    + exact IH.
  - intro E. inversion E. subst. left. eapply binary64_applyHomography_err, Hm.
Qed.



(** The body of computeHomographyRectToQuad, guard by guard. *)
Lemma binary64_compute_unfold (process : option Process) (W H : float) (quad : Quad) :
  computeHomographyRectToQuad process W H quad
  = if (W <=? 0) || (H <=? 0) then Err InvalidDimensions
    else match validateQuad quad DEFAULT_EPSILON with
         | Invalid reason => Err (InvalidQuad reason)
         | Valid =>
             match solveLinearSystem (fst (buildSystem (rectCorners W H) quad))
                                     (snd (buildSystem (rectCorners W H) quad)) with
             | Err e => Err e
             | Ok h =>
                 if isProd process then Ok (matrixOfSolution h)
                 else match sanityCheckRectToQuad W H quad (matrixOfSolution h) with
                      | Ok _ => Ok (matrixOfSolution h)
                      | Err e => Err e
                      end
             end
         end.
Proof.
  unfold computeHomographyRectToQuad.
  destruct ((W <=? 0) || (H <=? 0)); [reflexivity|].
  destruct (validateQuad quad DEFAULT_EPSILON); [|reflexivity].
  cbv zeta.
  destruct (buildSystem (rectCorners W H) quad) as [A b]. cbn [fst snd].
  destruct (solveLinearSystem A b) as [h|e]; cbn [bind]; [|reflexivity].
  fold (matrixOfSolution h).
  destruct (isProd process); cbn [negb]; [reflexivity|].
  destruct (sanityCheckRectToQuad W H quad (matrixOfSolution h)); reflexivity.
Qed.




(** C9 (amended): computeHomographyRectToQuad reads NODE_ENV, and its
    outcome for a given (width, height, quad) is determined by whether
    the environment is production: a matrix returned outside production
    is returned in every environment, an error thrown in production is
    thrown in every environment, and where production returns a matrix
    the other environments return the same matrix or throw
    DegenerateProjection or InternalConsistency from the sanity check. *)
Theorem binary64_operations_deterministic :
  (forall p1 p2 W H quad,
      isProd p1 = isProd p2 ->
      computeHomographyRectToQuad p1 W H quad = computeHomographyRectToQuad p2 W H quad)
  /\ (forall p1 p2 W H quad M,
         isProd p1 = false ->
         computeHomographyRectToQuad p1 W H quad = Ok M ->
         computeHomographyRectToQuad p2 W H quad = Ok M)
  /\ (forall p1 p2 W H quad e,
         isProd p1 = true ->
         computeHomographyRectToQuad p1 W H quad = Err e ->
         computeHomographyRectToQuad p2 W H quad = Err e)
  /\ (forall p1 p2 W H quad M,
         isProd p1 = true -> isProd p2 = false ->
         computeHomographyRectToQuad p1 W H quad = Ok M ->
         computeHomographyRectToQuad p2 W H quad = Ok M
         \/ computeHomographyRectToQuad p2 W H quad = Err DegenerateProjection
         \/ computeHomographyRectToQuad p2 W H quad = Err InternalConsistency).
Proof.
  split; [|split; [|split]].
  - intros p1 p2 W H quad Hp. rewrite !binary64_compute_unfold, Hp. reflexivity.
  - intros p1 p2 W H quad M Hp Hok. rewrite binary64_compute_unfold in *. rewrite Hp in Hok.
    destruct ((W <=? 0) || (H <=? 0)); [discriminate|].
    destruct (validateQuad quad DEFAULT_EPSILON); [|discriminate].
    destruct (solveLinearSystem _ _) as [h|e]; [|discriminate].
    destruct (sanityCheckRectToQuad W H quad (matrixOfSolution h)); [|discriminate].
    destruct (isProd p2); exact Hok.
  - intros p1 p2 W H quad e Hp Herr. rewrite binary64_compute_unfold in *. rewrite Hp in Herr.
    destruct ((W <=? 0) || (H <=? 0)); [exact Herr|].
    destruct (validateQuad quad DEFAULT_EPSILON); [|exact Herr].
    destruct (solveLinearSystem _ _) as [h|e']; [discriminate | exact Herr].
  - intros p1 p2 W H quad M Hp1 Hp2 Hok. rewrite binary64_compute_unfold in *.
    rewrite Hp1 in Hok. rewrite Hp2.
    destruct ((W <=? 0) || (H <=? 0)); [discriminate|].
    destruct (validateQuad quad DEFAULT_EPSILON); [|discriminate].
    destruct (solveLinearSystem _ _) as [h|e]; [|discriminate].
    inversion Hok; subst M.
    destruct (sanityCheckRectToQuad W H quad (matrixOfSolution h)) as [u|e] eqn:Hs.
    + left. reflexivity.
    + right. unfold sanityCheckRectToQuad in Hs. apply binary64_sanityLoop_err in Hs.
      destruct Hs as [-> | ->]; [left | right]; reflexivity.
Qed.

Lemma binary64_operations_deterministic_witness :
  computeHomographyRectToQuad productionEnv 100 50 exampleQuad = Ok exampleMatrix
  /\ computeHomographyRectToQuad None 0 50 exampleQuad = Err InvalidDimensions.
Proof.
  destruct binary64_operations_deterministic as (_ & Hok & Herr & _).
  split.
  - apply (Hok None productionEnv); [reflexivity | vm_compute; reflexivity].
  - apply (Herr productionEnv None); reflexivity.
Defined.

(** The same call in two environments, with two outcomes. *)
Lemma binary64_env_dependent :
  isProd None = false /\ isProd productionEnv = true
  /\ computeHomographyRectToQuad None 100 50 thinQuad = Err DegenerateProjection
  /\ (exists M, computeHomographyRectToQuad productionEnv 100 50 thinQuad = Ok M)
  /\ computeHomographyRectToQuad None 100 50 thinQuad
     <> computeHomographyRectToQuad productionEnv 100 50 thinQuad.
Proof.
  split; [reflexivity|]. split; [reflexivity|].
  split; [vm_compute; reflexivity|].
  split; [eexists; vm_compute; reflexivity|].
  vm_compute. discriminate.
Qed.

(** ** Errors and NaN *)



Create HintDb nan.

#[local] Hint Resolve add_nan_l add_nan_r sub_nan_l sub_nan_r mul_nan_l mul_nan_r
  div_nan_l : nan.

(** A NaN coordinate makes the shoelace area NaN. *)
Lemma shoelaceArea_nan (quad : Quad) :
  quadHasNaN quad = true -> isNaN (shoelaceArea quad) = true.
Proof.
  unfold quadHasNaN, pointHasNaN, shoelaceArea.
  rewrite !orb_true_iff.
  intros [[[[H|H]|[H|H]]|[H|H]]|[H|H]]; auto 8 with nan.
Qed.

(** X29: a quad with a NaN coordinate is never accepted, at any
    tolerance, so computeHomographyRectToQuad never returns a matrix for
    it: it throws for the dimensions or for the quad. *)
Theorem binary64_validateQuad_rejects_NaN (quad : Quad) (epsilon : float) :
  quadHasNaN quad = true ->
  validateQuad quad epsilon <> Valid
  /\ forall process W H, exists e,
       computeHomographyRectToQuad process W H quad = Err e
       /\ (e = InvalidDimensions \/ exists reason, e = InvalidQuad reason).
Proof.
  intro Hn.
  assert (Hv : forall eps, validateQuad quad eps <> Valid).
  { intros eps Hv. apply validateQuad_valid_iff in Hv.
    destruct Hv as (_ & _ & _ & Ho & _).
    rewrite (ltb_nan_r _ _ (shoelaceArea_nan quad Hn)) in Ho. discriminate. }
  split; [apply Hv|].
  intros process W H. rewrite binary64_compute_unfold.
  destruct ((W <=? 0) || (H <=? 0)).
  - exists InvalidDimensions. split; [reflexivity | left; reflexivity].
  - destruct (validateQuad quad DEFAULT_EPSILON) as [|reason] eqn:E.
    + exfalso. apply (Hv DEFAULT_EPSILON). exact E.
    + exists (InvalidQuad reason). split; [reflexivity | right; exists reason; reflexivity].
Qed.

Lemma binary64_validateQuad_rejects_NaN_witness :
  exists e,
    computeHomographyRectToQuad None 100 50 nanQuad = Err e
    /\ (e = InvalidDimensions \/ exists reason, e = InvalidQuad reason).
Proof.
  destruct (binary64_validateQuad_rejects_NaN nanQuad 0) as [_ H].
  - reflexivity.
  - apply H.
Defined.

(** X30: a NaN width passes the dimension guard (NaN <= 0 is false) and
    is reported by the solver: with a height that is not <= 0 and an
    accepted quad the call throws the singular-system error, in every
    environment. *)
Theorem binary64_computeHomographyRectToQuad_NaN_width
  (process : option Process) (W H : float) (quad : Quad) :
  isNaN W = true -> (H <=? 0) = false ->
  validateQuad quad DEFAULT_EPSILON = Valid ->
  computeHomographyRectToQuad process W H quad = Err SingularSystem.
Proof.
  intros HW HH Hv. rewrite binary64_compute_unfold.
  rewrite (leb_nan_l _ _ HW), HH, Hv. cbn [orb].
  apply isNaN_eq in HW. subst W.
  replace (solveLinearSystem (fst (buildSystem (rectCorners nan H) quad))
                             (snd (buildSystem (rectCorners nan H) quad)))
    with (@Err (list float) SingularSystem); [reflexivity|].
  vm_compute. reflexivity.
Qed.

Lemma binary64_computeHomographyRectToQuad_NaN_width_witness :
  computeHomographyRectToQuad None nan 50 exampleQuad = Err SingularSystem.
Proof.
  apply (binary64_computeHomographyRectToQuad_NaN_width None nan 50 exampleQuad);
    reflexivity.
Defined.

(** ** Rectangles *)

Lemma eqb_sym (a b : float) : (a =? b) = (b =? a).
Proof.
  rewrite !FloatAxioms.eqb_spec. unfold SFeqb.
  rewrite (SFcompare_antisym (Prim2SF a) (Prim2SF b)).
  destruct (SFcompare (Prim2SF a) (Prim2SF b)) as [[| |]|]; reflexivity.
Qed.

Lemma eqb_refl (a : float) : isNaN a = false -> (a =? a) = true.
Proof. unfold isNaN. intro H. apply negb_false_iff in H. exact H. Qed.

Lemma validateQuad_duplicate_iff (quad : Quad) (epsilon : float) :
  validateQuad quad epsilon = Invalid DuplicatePoint <-> hasDuplicatePoints quad = true.
Proof.
  unfold validateQuad. cbv zeta.
  destruct (hasDuplicatePoints quad); [split; reflexivity|].
  destruct (hasCollinearTriplet quad epsilon); [split; discriminate|].
  destruct (abs (quadArea quad) <=? epsilon); [split; discriminate|].
  destruct (negb (isClockwiseQuad quad)); [split; discriminate|].
  destruct (isSelfIntersecting quad epsilon); split; discriminate.
Qed.

(** X7: on the rectangle quad built from (x, y, w, h), with x, y, x + w
    and y + h not NaN, validateQuad reports duplicate points exactly
    when x + w === x or y + h === y: when a side is zero or is absorbed
    by the rounding of the sum. *)
Theorem binary64_validateQuad_quadFromRect (x0 y0 w h epsilon : float) :
  isNaN x0 = false -> isNaN y0 = false ->
  isNaN (x0 + w) = false -> isNaN (y0 + h) = false ->
  validateQuad (quadFromRect x0 y0 w h) epsilon = Invalid DuplicatePoint
  <-> (x0 + w =? x0) = true \/ (y0 + h =? y0) = true.
Proof.
  intros Hx Hy Hxw Hyh. rewrite validateQuad_duplicate_iff.
  unfold hasDuplicatePoints, pointsEqual, quadFromRect. simpl.
  rewrite (eqb_refl x0 Hx), (eqb_refl y0 Hy), (eqb_refl _ Hxw), (eqb_refl _ Hyh).
  rewrite (eqb_sym x0 (x0 + w)), (eqb_sym y0 (y0 + h)).
  destruct (x0 + w =? x0), (y0 + h =? y0); simpl; split; auto;
    intros [H|H]; discriminate.
Qed.

Lemma binary64_validateQuad_quadFromRect_witness :
  validateQuad (quadFromRect 1e17 0 1 1) DEFAULT_EPSILON = Invalid DuplicatePoint.
Proof.
  apply (binary64_validateQuad_quadFromRect 1e17 0 1 1 DEFAULT_EPSILON);
    try reflexivity.
  left. reflexivity.
Defined.

End OnBinary64.
